(** * The MDL parser front end, [src/parser/ply/main.py]

    The script reads a model-description file through [mdl.parseFile],
    wraps the resulting commands and symbols in a two-key dictionary,
    prints that dictionary as one JSON line and, when its second
    argument is the string [true], pretty-prints it as well.

    The script is a straight line of module-level statements.  It is
    embedded below as a computation in a state-and-exception monad: the
    state holds the module namespace, what has been written to standard
    output and the calls made to the parser; an exception that nothing
    catches ends the run there, as it does in the interpreter. *)

From Stdlib Require Import ZArith NArith List String Ascii Bool Lia.
From Stdlib Require Import SpecFloat DecimalString.
Import ListNotations.
Local Open Scope string_scope.
Set Warnings "-register-all".

(** ** Python values *)

(** A Python [str] is a sequence of Unicode code points. *)
Definition pystr := list N.

(** The [str] denoted by an ASCII literal of the source. *)
Definition u (s : string) : pystr :=
  map N_of_ascii (list_ascii_of_string s).

Fixpoint pystr_eqb (a b : pystr) : bool :=
  match a, b with
  | [], [] => true
  | x :: a', y :: b' => N.eqb x y && pystr_eqb a' b'
  | _, _ => false
  end.

(** The built-in values a parser written in Python hands back and that
    [json] knows about.  A [dict] keeps its items in insertion order (the
    language guarantees it from Python 3.7 on); its keys are hashable and
    distinct in a well-formed value, which nothing below relies on.  A
    [float] is an IEEE 754 binary64 datum. *)
Inductive value : Type :=
| VNone
| VBool (b : bool)
| VInt (n : Z)
| VFloat (f : spec_float)
| VStr (s : pystr)
| VList (l : list value)
| VTuple (l : list value)
| VDict (items : list (value * value)).

(** The exceptions the script can run into; [Other] stands for any
    further exception class a callee may raise. *)
Inductive exn : Type :=
| IndexError
| NameError (name : string)
| TypeError
| ValueError
| Other (cls : string).

Inductive result (A : Type) : Type :=
| Ok (a : A)
| Raise (e : exn).
Arguments Ok {A} a.
Arguments Raise {A} e.

Definition rbind {A B} (r : result A) (k : A -> result B) : result B :=
  match r with
  | Ok a => k a
  | Raise e => Raise e
  end.

(** Running [f] over a list from left to right, stopping at the first
    exception. *)
Definition rmap {A B} (f : A -> result B) : list A -> result (list B) :=
  fix go (xs : list A) : result (list B) :=
    match xs with
    | [] => Ok []
    | x :: r =>
        match f x with
        | Ok c =>
            match go r with
            | Ok cs => Ok (c :: cs)
            | Raise e => Raise e
            end
        | Raise e => Raise e
        end
    end.

Declare Scope result_scope.
Delimit Scope result_scope with result.
Notation "'do' x <- c ; k" := (rbind c (fun x => k))
  (at level 10, x name, c at level 100, k at level 200) : result_scope.

(** Truth value testing, as [if parsed:] does it. *)
Definition truthy (v : value) : bool :=
  match v with
  | VNone => false
  | VBool b => b
  | VInt n => negb (Z.eqb n 0)
  | VFloat (S754_zero _) => false
  | VFloat _ => true
  | VStr s => negb (Nat.eqb (List.length s) 0)
  | VList l | VTuple l => negb (Nat.eqb (List.length l) 0)
  | VDict items => negb (Nat.eqb (List.length items) 0)
  end.

(** What iterating over a value yields: the elements of a list or tuple,
    the one-character strings of a [str], the keys of a [dict]; the other
    values are not iterable. *)
Definition iterate (v : value) : result (list value) :=
  match v with
  | VList l | VTuple l => Ok l
  | VStr s => Ok (map (fun c => VStr [c]) s)
  | VDict items => Ok (map fst items)
  | VNone | VBool _ | VInt _ | VFloat _ => Raise TypeError
  end.

(** The target list [(commands, symbols) = ...]: exactly two items. *)
Definition unpack2 (v : value) : result (value * value) :=
  (do xs <- iterate v;
   match xs with
   | [a; b] => Ok (a, b)
   | _ => Raise ValueError
   end)%result.

(** ** [json.dumps] with its default arguments *)

Definition hex_digit (n : N) : ascii :=
  match n with
  | 0%N => "0" | 1%N => "1" | 2%N => "2" | 3%N => "3"
  | 4%N => "4" | 5%N => "5" | 6%N => "6" | 7%N => "7"
  | 8%N => "8" | 9%N => "9" | 10%N => "a" | 11%N => "b"
  | 12%N => "c" | 13%N => "d" | 14%N => "e" | _ => "f"
  end%char.

(** ['\\u{0:04x}'.format(n)] for [n < 0x10000]. *)
Definition u_escape (n : N) : string :=
  String "\" (String "u"
    (String (hex_digit (N.land (N.shiftr n 12) 15))
    (String (hex_digit (N.land (N.shiftr n 8) 15))
    (String (hex_digit (N.land (N.shiftr n 4) 15))
    (String (hex_digit (N.land n 15)) EmptyString))))).

(** The replacement of one code point in [encode_basestring_ascii]:
    the short escapes, [\uXXXX] for the rest outside [' '..'~'], a
    surrogate pair above the basic plane. *)
Definition escape_char (c : N) : string :=
  if N.eqb c 92 then "\\"
  else if N.eqb c 34 then String "\" (String (ascii_of_N 34) EmptyString)
  else if N.eqb c 8 then "\b"
  else if N.eqb c 12 then "\f"
  else if N.eqb c 10 then "\n"
  else if N.eqb c 13 then "\r"
  else if N.eqb c 9 then "\t"
  else if N.leb 32 c && N.leb c 126 then String (ascii_of_N c) EmptyString
  else if N.ltb c 65536 then u_escape c
  else
    let n := (c - 65536)%N in
    let s1 := N.lor 55296 (N.land (N.shiftr n 10) 1023) in
    let s2 := N.lor 56320 (N.land n 1023) in
    u_escape s1 ++ u_escape s2.

Definition dquote : string := String (ascii_of_N 34) EmptyString.

(** A text between double quotes. *)
Definition quoted (s : string) : string := dquote ++ s ++ dquote.

Definition encode_basestring_ascii (s : pystr) : string :=
  dquote ++ String.concat EmptyString (map escape_char s) ++ dquote.

(** [int.__repr__]: the decimal digits, with a sign for a negative
    number.  The limit that later interpreters put on the number of
    digits is left out. *)
Definition intstr (n : Z) : string :=
  NilZero.string_of_int (Z.to_int n).

Section Encoder.

(** [float.__repr__], the shortest decimal that reads back as the same
    float; it is only consulted for zeros and finite values. *)
Variable float_repr : spec_float -> string.

Definition floatstr (o : spec_float) : string :=
  match o with
  | S754_nan => "NaN"
  | S754_infinity false => "Infinity"
  | S754_infinity true => "-Infinity"
  | _ => float_repr o
  end.

(** The key of a dictionary item as [_iterencode_dict] coerces it. *)
Definition key_str (k : value) : result pystr :=
  match k with
  | VStr s => Ok s
  | VFloat f => Ok (u (floatstr f))
  | VBool true => Ok (u "true")
  | VBool false => Ok (u "false")
  | VNone => Ok (u "null")
  | VInt n => Ok (u (intstr n))
  | VList _ | VTuple _ | VDict _ => Raise TypeError
  end.

(** [_iterencode] with [_iterencode_list] and [_iterencode_dict]: the
    item separator is [", "], the key separator [": "], and there is no
    indentation. *)
Fixpoint iterencode (o : value) : result string :=
  match o with
  | VStr s => Ok (encode_basestring_ascii s)
  | VNone => Ok "null"
  | VBool true => Ok "true"
  | VBool false => Ok "false"
  | VInt n => Ok (intstr n)
  | VFloat f => Ok (floatstr f)
  | VList l | VTuple l =>
      match l with
      | [] => Ok "[]"
      | _ =>
          (do chunks <- rmap iterencode l;
           Ok ("[" ++ String.concat ", " chunks ++ "]"))%result
      end
  | VDict items =>
      match items with
      | [] => Ok "{}"
      | _ =>
          (do chunks <-
             rmap (fun kv : value * value =>
                     do key <- key_str (fst kv);
                     do c <- iterencode (snd kv);
                     Ok (encode_basestring_ascii key ++ ": " ++ c)) items;
           Ok ("{" ++ String.concat ", " chunks ++ "}"))%result
      end
  end.

Definition json_dumps (obj : value) : result string := iterencode obj.

End Encoder.

(** ** The interpreter state and its monad *)

(** One write to standard output: [print(s)] writes [s] and a newline,
    [pprint.pprint(v)] writes the pretty form of [v] and a newline. *)
Inductive output : Type :=
| Printed (s : string)
| PrettyPrinted (v : value).

Record state : Type := mkState {
  globals : list (string * value);   (* the module namespace *)
  stdout : list output;              (* writes, oldest first *)
  calls : list value                 (* arguments of mdl.parseFile, oldest first *)
}.

Definition initial : state :=
  {| globals := []; stdout := []; calls := [] |}.

Definition M (A : Type) : Type := state -> state * result A.

Definition ret {A} (a : A) : M A := fun st => (st, Ok a).

Definition raise {A} (e : exn) : M A := fun st => (st, Raise e).

Definition bind {A B} (m : M A) (k : A -> M B) : M B :=
  fun st =>
    match m st with
    | (st', Ok a) => k a st'
    | (st', Raise e) => (st', Raise e)
    end.

Definition lift {A} (r : result A) : M A := fun st => (st, r).

Declare Scope py_scope.
Delimit Scope py_scope with py.
Notation "x <- c ;; k" := (bind c (fun x => k))
  (at level 61, c at next level, right associativity) : py_scope.
Notation "c ;; k" := (bind c (fun _ => k))
  (at level 61, right associativity) : py_scope.

Fixpoint lookup (name : string) (g : list (string * value)) : option value :=
  match g with
  | [] => None
  | (n, v) :: g' => if String.eqb n name then Some v else lookup name g'
  end.

(** [name = v] at module level. *)
Definition assign (name : string) (v : value) : M unit :=
  fun st =>
    ({| globals := (name, v) :: globals st;
        stdout := stdout st;
        calls := calls st |}, Ok tt).

(** Reading a global name. *)
Definition load (name : string) : M value :=
  fun st =>
    match lookup name (globals st) with
    | Some v => (st, Ok v)
    | None => (st, Raise (NameError name))
    end.

(** [sys.argv[i]] for a literal index [i]. *)
Definition subscript (argv : list pystr) (i : nat) : M value :=
  match nth_error argv i with
  | Some a => ret (VStr a)
  | None => raise IndexError
  end.

(** [a == "..."] against a [str] literal. *)
Definition eq_literal (a : value) (lit : string) : bool :=
  match a with
  | VStr s => pystr_eqb s (u lit)
  | _ => false
  end.

Definition write (o : output) : M unit :=
  fun st =>
    ({| globals := globals st;
        stdout := stdout st ++ [o];
        calls := calls st |}, Ok tt).

Definition print (s : string) : M unit := write (Printed s).

Definition pprint (v : value) : M unit := write (PrettyPrinted v).

Definition newline : string := String (ascii_of_N 10) EmptyString.

(** The number of line ends in a text. *)
Fixpoint newlines (s : string) : nat :=
  match s with
  | EmptyString => 0
  | String a s' =>
      (if Ascii.eqb a (ascii_of_N 10) then 1 else 0) + newlines s'
  end.

Definition is_pretty (o : output) : bool :=
  match o with
  | PrettyPrinted _ => true
  | Printed _ => false
  end.

(** Whether a debug rendering has been written. *)
Definition debug_rendered (st : state) : bool :=
  existsb is_pretty (stdout st).

(** The status the interpreter exits with: 0 when the module body runs
    to its end, 1 when an exception goes uncaught. *)
Definition exit_status (r : result unit) : Z :=
  match r with
  | Ok _ => 0
  | Raise _ => 1
  end.

(** The dictionary the script builds from the two parser results. *)
Definition document (commands symbols : value) : value :=
  VDict [(VStr (u "symbols"), symbols); (VStr (u "commands"), commands)].

(** The text of a JSON object whose members are [symbols] and
    [commands], in that order, with the given member texts. *)
Definition compact_line (symbols_json commands_json : string) : string :=
  "{" ++ quoted "symbols" ++ ": " ++ symbols_json ++ ", "
      ++ quoted "commands" ++ ": " ++ commands_json ++ "}".

Section Script.

(** The collaborators that are not part of the script.  First, what a
    run finds outside itself, the file system above all. *)
Variable world : Type.

(** [mdl.parseFile]: it returns a value or raises; it is taken to write
    nothing to standard output itself.  The [import] statements at the
    head of the script are taken to succeed silently. *)
Variable mdl_parseFile : world -> value -> result value.

(** [float.__repr__]. *)
Variable float_repr : spec_float -> string.

(** [pprint.pformat] with its default arguments. *)
Variable pformat : value -> string.

Definition parseFile (w : world) (filename : value) : M value :=
  fun st =>
    ({| globals := globals st;
        stdout := stdout st;
        calls := calls st ++ [filename] |}, mdl_parseFile w filename).

(** The module body, statement by statement. *)
Definition main (w : world) (argv : list pystr) : M unit :=
  (a1 <- subscript argv 1 ;;
   assign "mdl_file" a1 ;;
   mdl_file <- load "mdl_file" ;;
   r <- parseFile w mdl_file ;;
   assign "parsed" r ;;
   parsed <- load "parsed" ;;
   (if truthy parsed then
      parsed <- load "parsed" ;;
      p <- lift (unpack2 parsed) ;;
      assign "commands" (fst p) ;;
      assign "symbols" (snd p)
    else
      print "Failed to parse") ;;
   symbols <- load "symbols" ;;
   commands <- load "commands" ;;
   assign "wrapper"
     (VDict [(VStr (u "symbols"), symbols);
             (VStr (u "commands"), commands)]) ;;
   wrapper <- load "wrapper" ;;
   line <- lift (json_dumps float_repr wrapper) ;;
   print line ;;
   a2 <- subscript argv 2 ;;
   if eq_literal a2 "true" then
     wrapper <- load "wrapper" ;;
     pprint wrapper
   else
     ret tt)%py.

Definition run (w : world) (argv : list pystr) : state * result unit :=
  main w argv initial.

(** The parser's answer for [sys.argv[1]] is truthy, unpacks into two
    values, and the document built from them serialises: the run gets
    as far as printing the JSON line. *)
Definition emits_document (w : world) (argv : list pystr) : Prop :=
  exists path parsed commands symbols line,
    nth_error argv 1 = Some path /\
    mdl_parseFile w (VStr path) = Ok parsed /\
    truthy parsed = true /\
    unpack2 parsed = Ok (commands, symbols) /\
    json_dumps float_repr (document commands symbols) = Ok line.

Definition render (o : output) : string :=
  match o with
  | Printed s => s ++ newline
  | PrettyPrinted v => pformat v ++ newline
  end.

(** The text standard output has received. *)
Definition stdout_text (st : state) : string :=
  String.concat EmptyString (map render (stdout st)).

End Script.

Arguments run {world} mdl_parseFile float_repr w argv.
Arguments emits_document {world} mdl_parseFile float_repr w argv.
Arguments main {world} mdl_parseFile float_repr w argv.

(** ** A small instance of the collaborators

    A file system is a finite table from paths to texts; the sample
    parser knows a single one-command model and answers with the empty
    tuple for everything else, the way [parseFile] answers for a file it
    cannot read. *)

Definition sample_world : Type := list (pystr * string).

Fixpoint sample_file_at (w : sample_world) (path : pystr) : option string :=
  match w with
  | [] => None
  | (p, text) :: w' =>
      if pystr_eqb p path then Some text else sample_file_at w' path
  end.

Definition sample_commands : value :=
  VList [VDict [(VStr (u "op"), VStr (u "push")); (VStr (u "args"), VNone)]].

Definition sample_symbols : value := VDict [].

Definition sample_parseFile (w : sample_world) (filename : value)
  : result value :=
  match filename with
  | VStr path =>
      match sample_file_at w path with
      | Some "push" => Ok (VTuple [sample_commands; sample_symbols])
      | _ => Ok (VTuple [])
      end
  | _ => Raise TypeError
  end.

(** The JSON text of [sample_commands]. *)
Definition sample_commands_json : string :=
  "[{" ++ quoted "op" ++ ": " ++ quoted "push" ++ ", "
       ++ quoted "args" ++ ": null}]".

Definition sample_float_repr (f : spec_float) : string :=
  match f with
  | S754_zero false => "0.0"
  | S754_zero true => "-0.0"
  | S754_finite s m e =>
      (if s then "-" else EmptyString) ++ intstr (Z.pos m) ++ "p" ++ intstr e
  | _ => "nan"
  end.

Definition sample_pformat (v : value) : string :=
  match json_dumps sample_float_repr v with
  | Ok s => s
  | Raise _ => "?"
  end.

Definition sample_disk : sample_world :=
  [(u "face.mdl", "push"); (u "notes.txt", "hello")].

(** Another disk holding the same model file. *)
Definition sample_disk' : sample_world :=
  [(u "face.mdl", "push")].

(** A parser that answers in other shapes: a list instead of a tuple, a
    tuple of three, a number, a pair whose symbols have a tuple for a
    key; and one that raises for a file it does not find. *)
Definition sample_odd_parseFile (w : sample_world) (filename : value)
  : result value :=
  match filename with
  | VStr path =>
      match sample_file_at w path with
      | Some "list" => Ok (VList [sample_commands; sample_symbols])
      | Some "triple" => Ok (VTuple [VNone; VNone; VNone])
      | Some "number" => Ok (VInt 7)
      | Some "badkey" =>
          Ok (VTuple [sample_commands;
                      VDict [(VTuple [VInt 1], VInt 2)]])
      | Some _ => Ok (VTuple [])
      | None => Raise (Other "FileNotFoundError")
      end
  | _ => Raise TypeError
  end.

Definition sample_odd_disk : sample_world :=
  [(u "list.mdl", "list"); (u "triple.mdl", "triple");
   (u "number.mdl", "number"); (u "badkey.mdl", "badkey")].

(** ** Printable text *)

(** A character between the space and the tilde. *)
Definition printable_char (a : ascii) : bool :=
  N.leb 32 (N_of_ascii a) && N.leb (N_of_ascii a) 126.

(** A text made of such characters only. *)
Fixpoint printable (s : string) : bool :=
  match s with
  | EmptyString => true
  | String a s' => printable_char a && printable s'
  end.

(** ** The states a run can end in *)

(** The namespace once [parsed] is bound. *)
Definition namespace_parsed (path : pystr) (parsed : value)
  : list (string * value) :=
  [("parsed", parsed); ("mdl_file", VStr path)].

(** The namespace once [wrapper] is bound. *)
Definition namespace_wrapped (path : pystr) (parsed commands symbols : value)
  : list (string * value) :=
  ("wrapper", document commands symbols)
    :: ("symbols", symbols) :: ("commands", commands)
    :: namespace_parsed path parsed.

(** * Properties *)

(** ** Strings and line ends *)

Lemma pystr_eqb_eq (a b : pystr) : pystr_eqb a b = true <-> a = b.
Proof.
  revert b; induction a as [|x a IH]; intros [|y b]; simpl;
    try (split; [discriminate | discriminate]); try tauto.
  rewrite andb_true_iff, N.eqb_eq, IH.
  split.
  - intros [-> ->]; reflexivity.
  - intros E; injection E; auto.
Qed.

Lemma pystr_eqb_refl (a : pystr) : pystr_eqb a a = true.
Proof. apply pystr_eqb_eq; reflexivity. Qed.

Lemma append_assoc' (a b c : string) : (a ++ b) ++ c = a ++ (b ++ c).
Proof. induction a as [|x a IH]; simpl; [reflexivity | now rewrite IH]. Qed.

Lemma append_nil_r (a : string) : a ++ EmptyString = a.
Proof. induction a as [|x a IH]; simpl; [reflexivity | now rewrite IH]. Qed.

Lemma newlines_app (a b : string) :
  newlines (a ++ b) = newlines a + newlines b.
Proof.
  induction a as [|x a IH]; simpl; [reflexivity |].
  rewrite IH; lia.
Qed.

Lemma newlines_cons (a : ascii) (s : string) :
  newlines (String a s) =
  (if Ascii.eqb a (ascii_of_N 10) then 1 else 0) + newlines s.
Proof. reflexivity. Qed.

Lemma newlines_newline : newlines newline = 1.
Proof. reflexivity. Qed.

Lemma newlines_concat (sep : string) (l : list string) :
  newlines sep = 0 ->
  Forall (fun s => newlines s = 0) l ->
  newlines (String.concat sep l) = 0.
Proof.
  intros Hsep H; induction H as [|s l Hs Hl IH]; [reflexivity |].
  destruct l as [|s' l']; [exact Hs |].
  change (String.concat sep (s :: s' :: l'))
    with (s ++ sep ++ String.concat sep (s' :: l')).
  rewrite !newlines_app, Hs, Hsep, IH; reflexivity.
Qed.

Lemma hex_digit_not_newline (n : N) :
  Ascii.eqb (hex_digit n) (ascii_of_N 10) = false.
Proof.
  unfold hex_digit.
  repeat match goal with
         | |- context [match ?x with _ => _ end] => destruct x
         end; reflexivity.
Qed.

Lemma newlines_u_escape (n : N) : newlines (u_escape n) = 0.
Proof.
  unfold u_escape, newlines.
  rewrite !hex_digit_not_newline; reflexivity.
Qed.

Lemma printable_not_newline (c : N) :
  (32 <= c)%N -> (c <= 126)%N ->
  Ascii.eqb (ascii_of_N c) (ascii_of_N 10) = false.
Proof.
  intros Hlo Hhi.
  destruct (Ascii.eqb (ascii_of_N c) (ascii_of_N 10)) eqn:E; [| reflexivity].
  apply Ascii.eqb_eq in E.
  assert (Hc : N_of_ascii (ascii_of_N c) = c)
    by (apply N_ascii_embedding; lia).
  rewrite E in Hc; vm_compute in Hc; lia.
Qed.

Lemma newlines_single (a : ascii) :
  Ascii.eqb a (ascii_of_N 10) = false ->
  newlines (String a EmptyString) = 0.
Proof. intros H; unfold newlines; rewrite H; reflexivity. Qed.

Lemma newlines_escape_char (c : N) : newlines (escape_char c) = 0.
Proof.
  unfold escape_char.
  destruct (N.eqb c 92); [reflexivity |].
  destruct (N.eqb c 34); [reflexivity |].
  destruct (N.eqb c 8); [reflexivity |].
  destruct (N.eqb c 12); [reflexivity |].
  destruct (N.eqb c 10); [reflexivity |].
  destruct (N.eqb c 13); [reflexivity |].
  destruct (N.eqb c 9); [reflexivity |].
  destruct (N.leb 32 c && N.leb c 126) eqn:Hp.
  - apply andb_true_iff in Hp as [Hlo Hhi].
    apply N.leb_le in Hlo, Hhi.
    apply newlines_single, printable_not_newline; assumption.
  - destruct (N.ltb c 65536).
    + apply newlines_u_escape.
    + cbv zeta; rewrite newlines_app, !newlines_u_escape; reflexivity.
Qed.

Lemma newlines_encode_basestring_ascii (s : pystr) :
  newlines (encode_basestring_ascii s) = 0.
Proof.
  unfold encode_basestring_ascii.
  rewrite !newlines_app, newlines_concat; try reflexivity.
  apply Forall_forall; intros x Hx.
  apply in_map_iff in Hx as [c [<- _]].
  apply newlines_escape_char.
Qed.

Lemma newlines_string_of_uint (d : Decimal.uint) :
  newlines (NilEmpty.string_of_uint d) = 0.
Proof. induction d; simpl; auto. Qed.

Lemma newlines_intstr (n : Z) : newlines (intstr n) = 0.
Proof.
  unfold intstr.
  assert (H : forall d, newlines (NilZero.string_of_uint d) = 0).
  { intros d; destruct d; try reflexivity;
      apply (newlines_string_of_uint (_ d)). }
  destruct (Z.to_int n) as [d|d]; simpl; [apply H |].
  apply H.
Qed.

(** ** Induction over values *)

Lemma Ok_inj {A} (a b : A) : Ok a = Ok b -> a = b.
Proof. intros E; injection E; auto. Qed.

Lemma value_nested_ind (P : value -> Prop) :
  P VNone ->
  (forall b, P (VBool b)) ->
  (forall n, P (VInt n)) ->
  (forall f, P (VFloat f)) ->
  (forall s, P (VStr s)) ->
  (forall l, Forall P l -> P (VList l)) ->
  (forall l, Forall P l -> P (VTuple l)) ->
  (forall items, Forall (fun kv => P (snd kv)) items -> P (VDict items)) ->
  forall v, P v.
Proof.
  intros HNone HBool HInt HFloat HStr HList HTuple HDict.
  fix IH 1.
  intros [ | b | n | f | s | l | l | items].
  - exact HNone.
  - apply HBool.
  - apply HInt.
  - apply HFloat.
  - apply HStr.
  - apply HList.
    induction l as [|x l IHl]; constructor; [apply IH | exact IHl].
  - apply HTuple.
    induction l as [|x l IHl]; constructor; [apply IH | exact IHl].
  - apply HDict.
    induction items as [|[k x] items IHl]; constructor;
      [apply IH | exact IHl].
Qed.

Lemma rmap_Forall {A B} (f : A -> result B) (Q : B -> Prop) (l : list A) :
  Forall (fun x => forall c, f x = Ok c -> Q c) l ->
  forall cs, rmap f l = Ok cs -> Forall Q cs.
Proof.
  induction 1 as [|x l Hx Hl IH]; simpl; intros cs E.
  - injection E as <-; constructor.
  - destruct (f x) as [c|e] eqn:Ef; [| discriminate].
    destruct (rmap f l) as [cs'|e]; [| discriminate].
    injection E as <-.
    constructor; [apply Hx; reflexivity | apply IH; reflexivity].
Qed.

Lemma rmap_length {A B} (f : A -> result B) (l : list A) (cs : list B) :
  rmap f l = Ok cs -> List.length cs = List.length l.
Proof.
  revert cs; induction l as [|x l IH]; simpl; intros cs E.
  - injection E as <-; reflexivity.
  - destruct (f x); [| discriminate].
    destruct (rmap f l); [| discriminate].
    injection E as <-; simpl; f_equal; apply IH; reflexivity.
Qed.

(** ** The encoder *)

Section EncoderFacts.

Variable float_repr : spec_float -> string.

(** [repr] of a float is a single token. *)
Hypothesis float_repr_one_line : forall f, newlines (float_repr f) = 0.

Lemma newlines_floatstr (f : spec_float) :
  newlines (floatstr float_repr f) = 0.
Proof.
  destruct f as [s | [|] | | s m e]; simpl;
    try reflexivity; apply float_repr_one_line.
Qed.

Lemma newlines_iterencode (v : value) :
  forall s, iterencode float_repr v = Ok s -> newlines s = 0.
Proof.
  induction v as [ | [|] | n | f | t | l IHl | l IHl | items IHl]
    using value_nested_ind; cbn [iterencode]; intros s E.
  - injection E as <-; reflexivity.
  - injection E as <-; reflexivity.
  - injection E as <-; reflexivity.
  - injection E as <-; apply newlines_intstr.
  - injection E as <-; apply newlines_floatstr.
  - injection E as <-; apply newlines_encode_basestring_ascii.
  - destruct l as [|x l]; [injection E as <-; reflexivity |].
    unfold rbind in E.
    destruct (rmap (iterencode float_repr) (x :: l)) as [cs|e] eqn:Ecs;
      [| discriminate].
    apply Ok_inj in E; subst s.
    rewrite !newlines_app, newlines_concat;
      [reflexivity | reflexivity |].
    eapply rmap_Forall; [exact IHl | exact Ecs].
  - destruct l as [|x l]; [injection E as <-; reflexivity |].
    unfold rbind in E.
    destruct (rmap (iterencode float_repr) (x :: l)) as [cs|e] eqn:Ecs;
      [| discriminate].
    apply Ok_inj in E; subst s.
    rewrite !newlines_app, newlines_concat;
      [reflexivity | reflexivity |].
    eapply rmap_Forall; [exact IHl | exact Ecs].
  - destruct items as [|kv items]; [injection E as <-; reflexivity |].
    unfold rbind in E.
    match type of E with
    | match ?r with _ => _ end = _ =>
        destruct r as [cs|e] eqn:Ecs; [| discriminate]
    end.
    apply Ok_inj in E; subst s.
    rewrite !newlines_app, newlines_concat;
      [reflexivity | reflexivity |].
    eapply rmap_Forall; [| exact Ecs].
    eapply Forall_impl; [| exact IHl].
    intros [k x] Hx c Ec; cbn [fst snd] in *.
    destruct (key_str float_repr k) as [key|e]; [| discriminate].
    destruct (iterencode float_repr x) as [cx|e] eqn:Ex; [| discriminate].
    apply Ok_inj in Ec; subst c.
    rewrite !newlines_app, newlines_encode_basestring_ascii,
      (Hx cx eq_refl); reflexivity.
Qed.

End EncoderFacts.

(** The document serialises to the two-member object text, its members
    being the serialisations of the two components, whenever both
    components serialise; and it fails as the first failing component
    does. *)
Lemma json_dumps_document (float_repr : spec_float -> string)
      (commands symbols : value) :
  json_dumps float_repr (document commands symbols) =
  (do js <- json_dumps float_repr symbols;
   do jc <- json_dumps float_repr commands;
   Ok (compact_line js jc))%result.
Proof.
  unfold json_dumps, document, compact_line.
  cbn [iterencode rmap rbind fst snd key_str].
  destruct (iterencode float_repr symbols) as [js|e]; [| reflexivity].
  destruct (iterencode float_repr commands) as [jc|e]; [| reflexivity].
  cbn [rbind]. f_equal.
  unfold encode_basestring_ascii, dquote.
  cbn -[String.append].
  cbn [String.concat String.append].
  rewrite !append_assoc'.
  reflexivity.
Qed.

(** The encoder on a few values, against what the interpreter prints. *)

Example dumps_set_x_5 :
  json_dumps sample_float_repr
    (document
       (VList [VDict [(VStr (u "op"), VStr (u "set"));
                      (VStr (u "args"), VList [VStr (u "x"); VInt 5])]])
       (VDict [(VStr (u "x"), VList [VStr (u "knob"); VInt 0])]))
  = Ok (compact_line
          ("{" ++ quoted "x" ++ ": [" ++ quoted "knob" ++ ", 0]}")
          ("[{" ++ quoted "op" ++ ": " ++ quoted "set" ++ ", "
                ++ quoted "args" ++ ": [" ++ quoted "x" ++ ", 5]}]")).
Proof. reflexivity. Qed.

Example dumps_escapes :
  json_dumps sample_float_repr (VStr [233; 10; 34; 127; 128512]%N)
  = Ok (quoted ("\u00e9\n\" ++ dquote ++ "\u007f\ud83d\ude00")).
Proof. reflexivity. Qed.

Example dumps_coerces_keys :
  json_dumps sample_float_repr
    (VDict [(VInt (-3), VTuple [VBool true; VNone]);
            (VFloat S754_nan, VFloat (S754_infinity true))])
  = Ok ("{" ++ quoted "-3" ++ ": [true, null], "
            ++ quoted "NaN" ++ ": -Infinity}").
Proof. reflexivity. Qed.

Example dumps_rejects_tuple_key :
  json_dumps sample_float_repr (VDict [(VTuple [VInt 1], VInt 2)])
  = Raise TypeError.
Proof. reflexivity. Qed.

Example unpack2_str :
  unpack2 (VStr (u "ab")) = Ok (VStr (u "a"), VStr (u "b")).
Proof. reflexivity. Qed.

Example unpack2_int : unpack2 (VInt 5) = Raise TypeError.
Proof. reflexivity. Qed.

Example unpack2_short : unpack2 (VTuple [VNone]) = Raise ValueError.
Proof. reflexivity. Qed.

(** ** The run, case by case *)

Ltac unfold_run :=
  unfold run, main, bind, subscript, assign, load, parseFile,
    lift, print, pprint, write, ret, raise, initial.

Ltac eval_run := cbn -[unpack2 truthy json_dumps nth_error].

Section Runs.

Variable world : Type.
Variable mdl_parseFile : world -> value -> result value.
Variable float_repr : spec_float -> string.

Local Abbreviation exec := (run mdl_parseFile float_repr).

(** No [sys.argv[1]]: the first statement raises. *)
Lemma run_no_path (w : world) (argv : list pystr) :
  nth_error argv 1 = None ->
  exec w argv = (initial, Raise IndexError).
Proof. intros H; unfold_run; rewrite H; reflexivity. Qed.

(** The parser raises: the exception goes through. *)
Lemma run_parser_raises (w : world) (argv : list pystr) path e :
  nth_error argv 1 = Some path ->
  mdl_parseFile w (VStr path) = Raise e ->
  exec w argv =
  ({| globals := [("mdl_file", VStr path)];
      stdout := [];
      calls := [VStr path] |}, Raise e).
Proof.
  intros H1 Hp; unfold_run; rewrite H1; eval_run.
  rewrite Hp; reflexivity.
Qed.

(** A falsy result: the diagnostic, then the unbound name. *)
Lemma run_rejected (w : world) (argv : list pystr) path parsed :
  nth_error argv 1 = Some path ->
  mdl_parseFile w (VStr path) = Ok parsed ->
  truthy parsed = false ->
  exec w argv =
  ({| globals := namespace_parsed path parsed;
      stdout := [Printed "Failed to parse"];
      calls := [VStr path] |}, Raise (NameError "symbols")).
Proof.
  intros H1 Hp Ht; unfold_run; rewrite H1; eval_run.
  rewrite Hp; eval_run. rewrite Ht; reflexivity.
Qed.

(** A truthy result that does not unpack into two targets. *)
Lemma run_unpack_fails (w : world) (argv : list pystr) path parsed e :
  nth_error argv 1 = Some path ->
  mdl_parseFile w (VStr path) = Ok parsed ->
  truthy parsed = true ->
  unpack2 parsed = Raise e ->
  exec w argv =
  ({| globals := namespace_parsed path parsed;
      stdout := [];
      calls := [VStr path] |}, Raise e).
Proof.
  intros H1 Hp Ht Hu; unfold_run; rewrite H1; eval_run.
  rewrite Hp; eval_run. rewrite Ht; eval_run. rewrite Hu; reflexivity.
Qed.

(** The document does not serialise. *)
Lemma run_not_serialisable (w : world) (argv : list pystr)
      path parsed c s e :
  nth_error argv 1 = Some path ->
  mdl_parseFile w (VStr path) = Ok parsed ->
  truthy parsed = true ->
  unpack2 parsed = Ok (c, s) ->
  json_dumps float_repr (document c s) = Raise e ->
  exec w argv =
  ({| globals := namespace_wrapped path parsed c s;
      stdout := [];
      calls := [VStr path] |}, Raise e).
Proof.
  intros H1 Hp Ht Hu Hj; unfold_run; rewrite H1; eval_run.
  rewrite Hp; eval_run. rewrite Ht; eval_run. rewrite Hu; eval_run.
  unfold document in Hj; cbn -[json_dumps] in Hj.
  rewrite Hj; reflexivity.
Qed.

(** The document serialises: the line is printed and the debug check
    decides how the run ends. *)
Lemma run_serialised (w : world) (argv : list pystr)
      path parsed c s line :
  nth_error argv 1 = Some path ->
  mdl_parseFile w (VStr path) = Ok parsed ->
  truthy parsed = true ->
  unpack2 parsed = Ok (c, s) ->
  json_dumps float_repr (document c s) = Ok line ->
  exec w argv =
  match nth_error argv 2 with
  | None =>
      ({| globals := namespace_wrapped path parsed c s;
          stdout := [Printed line];
          calls := [VStr path] |}, Raise IndexError)
  | Some a2 =>
      if pystr_eqb a2 (u "true") then
        ({| globals := namespace_wrapped path parsed c s;
            stdout := [Printed line; PrettyPrinted (document c s)];
            calls := [VStr path] |}, Ok tt)
      else
        ({| globals := namespace_wrapped path parsed c s;
            stdout := [Printed line];
            calls := [VStr path] |}, Ok tt)
  end.
Proof.
  intros H1 Hp Ht Hu Hj; unfold_run; rewrite H1; eval_run.
  rewrite Hp; eval_run. rewrite Ht; eval_run. rewrite Hu; eval_run.
  unfold document in Hj; cbn -[json_dumps] in Hj.
  rewrite Hj; eval_run.
  destruct (nth_error argv 2) as [a2|]; eval_run; [| reflexivity].
  change (u "true") with [116; 114; 117; 101]%N.
  destruct (pystr_eqb a2 [116; 114; 117; 101]%N); reflexivity.
Qed.

(** Every run is one of the cases above. *)
Lemma run_inv (w : world) (argv : list pystr)
      (P : state * result unit -> Prop) :
  (nth_error argv 1 = None -> P (initial, Raise IndexError)) ->
  (forall path e,
      nth_error argv 1 = Some path ->
      mdl_parseFile w (VStr path) = Raise e ->
      P ({| globals := [("mdl_file", VStr path)];
            stdout := [];
            calls := [VStr path] |}, Raise e)) ->
  (forall path parsed,
      nth_error argv 1 = Some path ->
      mdl_parseFile w (VStr path) = Ok parsed ->
      truthy parsed = false ->
      P ({| globals := namespace_parsed path parsed;
            stdout := [Printed "Failed to parse"];
            calls := [VStr path] |}, Raise (NameError "symbols"))) ->
  (forall path parsed e,
      nth_error argv 1 = Some path ->
      mdl_parseFile w (VStr path) = Ok parsed ->
      truthy parsed = true ->
      unpack2 parsed = Raise e ->
      P ({| globals := namespace_parsed path parsed;
            stdout := [];
            calls := [VStr path] |}, Raise e)) ->
  (forall path parsed c s e,
      nth_error argv 1 = Some path ->
      mdl_parseFile w (VStr path) = Ok parsed ->
      truthy parsed = true ->
      unpack2 parsed = Ok (c, s) ->
      json_dumps float_repr (document c s) = Raise e ->
      P ({| globals := namespace_wrapped path parsed c s;
            stdout := [];
            calls := [VStr path] |}, Raise e)) ->
  (forall path parsed c s line,
      nth_error argv 1 = Some path ->
      mdl_parseFile w (VStr path) = Ok parsed ->
      truthy parsed = true ->
      unpack2 parsed = Ok (c, s) ->
      json_dumps float_repr (document c s) = Ok line ->
      nth_error argv 2 = None ->
      P ({| globals := namespace_wrapped path parsed c s;
            stdout := [Printed line];
            calls := [VStr path] |}, Raise IndexError)) ->
  (forall path parsed c s line,
      nth_error argv 1 = Some path ->
      mdl_parseFile w (VStr path) = Ok parsed ->
      truthy parsed = true ->
      unpack2 parsed = Ok (c, s) ->
      json_dumps float_repr (document c s) = Ok line ->
      nth_error argv 2 = Some (u "true") ->
      P ({| globals := namespace_wrapped path parsed c s;
            stdout := [Printed line; PrettyPrinted (document c s)];
            calls := [VStr path] |}, Ok tt)) ->
  (forall path parsed c s line a2,
      nth_error argv 1 = Some path ->
      mdl_parseFile w (VStr path) = Ok parsed ->
      truthy parsed = true ->
      unpack2 parsed = Ok (c, s) ->
      json_dumps float_repr (document c s) = Ok line ->
      nth_error argv 2 = Some a2 ->
      a2 <> u "true" ->
      P ({| globals := namespace_wrapped path parsed c s;
            stdout := [Printed line];
            calls := [VStr path] |}, Ok tt)) ->
  P (exec w argv).
Proof.
  intros Hnone Hraise Hfalsy Hunpack Hdumps Hnoflag Hdebug Hplain.
  destruct (nth_error argv 1) as [path|] eqn:H1;
    [| rewrite run_no_path by assumption; auto].
  destruct (mdl_parseFile w (VStr path)) as [parsed|e] eqn:Hp;
    [| rewrite (run_parser_raises w argv path e) by assumption; eauto].
  destruct (truthy parsed) eqn:Ht;
    [| rewrite (run_rejected w argv path parsed) by assumption; eauto].
  destruct (unpack2 parsed) as [[c s]|e] eqn:Hu;
    [| rewrite (run_unpack_fails w argv path parsed e) by assumption;
       eauto].
  destruct (json_dumps float_repr (document c s)) as [line|e] eqn:Hj;
    [| rewrite (run_not_serialisable w argv path parsed c s e)
         by assumption; eauto].
  rewrite (run_serialised w argv path parsed c s line) by assumption.
  destruct (nth_error argv 2) as [a2|] eqn:H2; [| eauto].
  destruct (pystr_eqb a2 (u "true")) eqn:E.
  - apply pystr_eqb_eq in E; subst a2; eauto.
  - eapply Hplain; eauto.
    intros ->; rewrite pystr_eqb_refl in E; discriminate.
Qed.

End Runs.

(** ** The sample instance *)

Lemma sample_float_repr_one_line (f : spec_float) :
  newlines (sample_float_repr f) = 0.
Proof.
  destruct f as [[|] | b | | [|] m e]; try reflexivity;
    unfold sample_float_repr;
    rewrite !newlines_app, !newlines_intstr; reflexivity.
Qed.

(** ** What the script does *)

Section Claims.

Variable world : Type.
Variable mdl_parseFile : world -> value -> result value.
Variable float_repr : spec_float -> string.
Variable pformat : value -> string.

Local Abbreviation exec := (run mdl_parseFile float_repr).
Local Abbreviation dumps := (json_dumps float_repr).
Local Abbreviation text := (stdout_text pformat).

(** C1.  When the parser answers with a pair [(commands, symbols)] of
    serialisable values and the debug argument is present and is not
    [true], the run writes exactly one line to standard output, the
    JSON object with the members [symbols] and [commands] in that
    order, and the exit status is 0. *)
Theorem accepted_file_prints_one_json_line
        (w : world) (prog path flag : pystr) (rest : list pystr)
        (commands symbols : value) (js jc : string) :
  (forall f, newlines (float_repr f) = 0) ->
  mdl_parseFile w (VStr path) = Ok (VTuple [commands; symbols]) ->
  dumps symbols = Ok js ->
  dumps commands = Ok jc ->
  flag <> u "true" ->
  exists st r,
    exec w (prog :: path :: flag :: rest) = (st, r) /\
    stdout st = [Printed (compact_line js jc)] /\
    dumps (document commands symbols) = Ok (compact_line js jc) /\
    text st = compact_line js jc ++ newline /\
    newlines (text st) = 1 /\
    exit_status r = 0%Z.
Proof.
  intros Hrepr Hp Hs Hc Hflag.
  assert (Hj : dumps (document commands symbols) = Ok (compact_line js jc))
    by (rewrite json_dumps_document, Hs, Hc; reflexivity).
  rewrite (run_serialised _ mdl_parseFile float_repr w _ path
             (VTuple [commands; symbols]) commands symbols
             (compact_line js jc));
    try reflexivity; try assumption.
  cbn [nth_error].
  destruct (pystr_eqb flag (u "true")) eqn:E;
    [apply pystr_eqb_eq in E; contradiction |].
  eexists; eexists; split; [reflexivity |].
  split; [reflexivity |].
  split; [exact Hj |].
  assert (Ht : text {| globals := namespace_wrapped path
                                    (VTuple [commands; symbols])
                                    commands symbols;
                       stdout := [Printed (compact_line js jc)];
                       calls := [VStr path] |}
               = compact_line js jc ++ newline) by reflexivity.
  split; [exact Ht |].
  split; [| reflexivity].
  rewrite Ht, newlines_app, newlines_newline.
  rewrite (newlines_iterencode float_repr Hrepr _ _ Hj); reflexivity.
Qed.

(** C2.  When the parser answers with a falsy value, the run writes the
    line [Failed to parse] and nothing else to standard output, and
    the exit status is not 0. *)
Theorem rejected_file_prints_diagnostic
        (w : world) (prog path : pystr) (rest : list pystr)
        (parsed : value) :
  mdl_parseFile w (VStr path) = Ok parsed ->
  truthy parsed = false ->
  exists st r,
    exec w (prog :: path :: rest) = (st, r) /\
    stdout st = [Printed "Failed to parse"] /\
    text st = "Failed to parse" ++ newline /\
    exit_status r <> 0%Z.
Proof.
  intros Hp Ht.
  rewrite (run_rejected _ mdl_parseFile float_repr w _ path parsed);
    try reflexivity; try assumption.
  eexists; eexists; split; [reflexivity |].
  repeat split; discriminate.
Qed.

(** C3, as the code has it.  An invocation with fewer than two
    positional arguments always ends with a non-zero exit status, by an
    uncaught exception.  Without any positional argument the exception
    is raised at [sys.argv[1]], before the parser is called and before
    anything is written; with one positional argument the parser is
    called, once, on that argument. *)
Theorem short_argv_aborts (w : world) (argv : list pystr) :
  List.length argv < 3 ->
  exit_status (snd (exec w argv)) <> 0%Z /\
  (nth_error argv 1 = None ->
   exec w argv = (initial, Raise IndexError)) /\
  (forall path, nth_error argv 1 = Some path ->
                calls (fst (exec w argv)) = [VStr path]).
Proof.
  intros Hlen.
  assert (H2 : nth_error argv 2 = None)
    by (apply nth_error_None; lia).
  pattern (exec w argv); apply run_inv; intros;
    cbn [fst snd calls exit_status];
    try (rewrite H2 in *; discriminate);
    (split; [discriminate |]);
    (split; [intros; congruence || reflexivity |]);
    intros p Hp'; congruence.
Qed.

(** C4, as the code has it.  A debug rendering is written exactly when
    the run gets as far as printing the JSON line and the second
    argument is the string [true], compared as it stands. *)
Theorem debug_rendering_condition (w : world) (argv : list pystr) :
  debug_rendered (fst (exec w argv)) = true <->
  emits_document mdl_parseFile float_repr w argv /\
  nth_error argv 2 = Some (u "true").
Proof.
  pattern (exec w argv); apply run_inv; intros;
    cbn [fst stdout debug_rendered existsb is_pretty orb];
    (split; [try discriminate |]);
    try (intros [(p & v & c' & s' & l' & Hp & Hv & Ht & Hu & Hj) Hflag];
         first [reflexivity | congruence]).
  intros _; split; [| assumption].
  exists path, parsed, c, s, line; repeat split; assumption.
Qed.

(** C5.  For an accepted file, the run with the debug argument [true]
    writes what the run without debug writes, the same first line, and
    after it the pretty form of the very document that the first line
    serialises. *)
Theorem debug_output_extends_plain_output
        (w : world) (prog path flag : pystr) (rest : list pystr)
        (commands symbols : value) (js jc : string) :
  mdl_parseFile w (VStr path) = Ok (VTuple [commands; symbols]) ->
  dumps symbols = Ok js ->
  dumps commands = Ok jc ->
  flag <> u "true" ->
  exists plain debug,
    exec w (prog :: path :: flag :: rest) = (plain, Ok tt) /\
    exec w (prog :: path :: u "true" :: rest) = (debug, Ok tt) /\
    stdout plain = [Printed (compact_line js jc)] /\
    stdout debug =
      (stdout plain ++ [PrettyPrinted (document commands symbols)])%list /\
    dumps (document commands symbols) = Ok (compact_line js jc) /\
    text debug =
      text plain ++ pformat (document commands symbols) ++ newline.
Proof.
  intros Hp Hs Hc Hflag.
  assert (Hj : dumps (document commands symbols) = Ok (compact_line js jc))
    by (rewrite json_dumps_document, Hs, Hc; reflexivity).
  rewrite !(run_serialised _ mdl_parseFile float_repr w _ path
              (VTuple [commands; symbols]) commands symbols
              (compact_line js jc));
    try reflexivity; try assumption.
  cbn [nth_error].
  rewrite pystr_eqb_refl.
  destruct (pystr_eqb flag (u "true")) eqn:E;
    [apply pystr_eqb_eq in E; contradiction |].
  eexists; eexists; split; [reflexivity |].
  split; [reflexivity |].
  split; [reflexivity |].
  split; [reflexivity |].
  split; [exact Hj |].
  reflexivity.
Qed.

(** C7.  After a successful parse the names [commands] and [symbols]
    hold the two components of the parser's answer and [wrapper] holds
    the document made of exactly these; every JSON line written is the
    serialisation of that document and every pretty form written is
    of that document. *)
Theorem document_carries_parser_values
        (w : world) (prog path : pystr) (rest : list pystr)
        (commands symbols : value) :
  mdl_parseFile w (VStr path) = Ok (VTuple [commands; symbols]) ->
  exists st r,
    exec w (prog :: path :: rest) = (st, r) /\
    lookup "commands" (globals st) = Some commands /\
    lookup "symbols" (globals st) = Some symbols /\
    lookup "wrapper" (globals st) = Some (document commands symbols) /\
    (forall line, In (Printed line) (stdout st) ->
                  dumps (document commands symbols) = Ok line) /\
    (forall v, In (PrettyPrinted v) (stdout st) ->
               v = document commands symbols) /\
    (forall line, dumps (document commands symbols) = Ok line ->
                  exists more, stdout st = Printed line :: more).
Proof.
  clear pformat; intros Hp.
  destruct (dumps (document commands symbols)) as [line|e] eqn:Hj.
  - rewrite (run_serialised _ mdl_parseFile float_repr w _ path
               (VTuple [commands; symbols]) commands symbols line);
      try reflexivity; try assumption.
    destruct (nth_error (prog :: path :: rest) 2) as [a2|];
      [destruct (pystr_eqb a2 (u "true")) |];
      (eexists; eexists; split; [reflexivity |]);
      (split; [reflexivity |]);
      (split; [reflexivity |]);
      (split; [reflexivity |]);
      (split; [intros l Hin; simpl in Hin; intuition congruence |]);
      (split; [intros v Hin; simpl in Hin; intuition congruence |]);
      intros l Hl; apply Ok_inj in Hl; subst l; eexists; reflexivity.
  - rewrite (run_not_serialisable _ mdl_parseFile float_repr w _ path
               (VTuple [commands; symbols]) commands symbols e);
      try reflexivity; try assumption.
    eexists; eexists; split; [reflexivity |].
    split; [reflexivity |].
    split; [reflexivity |].
    split; [reflexivity |].
    split; [intros l [] |].
    split; [intros v [] |].
    intros l Hl; discriminate.
Qed.

(** C8, as the code has it.  An invocation that names a file calls the
    parser exactly once, on that name, whatever the parser answers, and
    a falsy answer ends the run by an exception without a second call;
    an invocation that names no file ends before any call. *)
Theorem parser_called_once_per_named_file (w : world) (argv : list pystr) :
  match nth_error argv 1 with
  | Some path =>
      calls (fst (exec w argv)) = [VStr path] /\
      (forall parsed,
          mdl_parseFile w (VStr path) = Ok parsed ->
          truthy parsed = false ->
          exists e, snd (exec w argv) = Raise e)
  | None =>
      calls (fst (exec w argv)) = [] /\
      snd (exec w argv) = Raise IndexError
  end.
Proof.
  pattern (exec w argv); apply run_inv; intros;
    match goal with
    | H : nth_error argv 1 = _ |- _ => rewrite H
    end; cbn [fst snd calls];
    (split; [reflexivity |]); try reflexivity;
    intros v Hv Hf; try (eexists; reflexivity); congruence.
Qed.

(** C9.  When the parser answers with a falsy value, the run prints
    the diagnostic and goes on to build the wrapper; neither [symbols]
    nor [commands] is bound, and the run ends there with an uncaught
    [NameError]. *)
Theorem rejected_file_raises_name_error
        (w : world) (prog path : pystr) (rest : list pystr)
        (parsed : value) :
  mdl_parseFile w (VStr path) = Ok parsed ->
  truthy parsed = false ->
  exists st,
    exec w (prog :: path :: rest) = (st, Raise (NameError "symbols")) /\
    stdout st = [Printed "Failed to parse"] /\
    lookup "symbols" (globals st) = None /\
    lookup "commands" (globals st) = None /\
    lookup "wrapper" (globals st) = None.
Proof.
  intros Hp Ht.
  rewrite (run_rejected _ mdl_parseFile float_repr w _ path parsed);
    try reflexivity; try assumption.
  eexists; split; [reflexivity |].
  repeat split.
Qed.

(** C10.  With an accepted file and no debug argument, the JSON line is
    written in full and only then the run ends with an uncaught
    [IndexError]. *)
Theorem missing_flag_fails_after_json_line
        (w : world) (prog path : pystr)
        (commands symbols : value) (js jc : string) :
  mdl_parseFile w (VStr path) = Ok (VTuple [commands; symbols]) ->
  dumps symbols = Ok js ->
  dumps commands = Ok jc ->
  exists st,
    exec w [prog; path] = (st, Raise IndexError) /\
    stdout st = [Printed (compact_line js jc)] /\
    text st = compact_line js jc ++ newline /\
    dumps (document commands symbols) = Ok (compact_line js jc).
Proof.
  intros Hp Hs Hc.
  assert (Hj : dumps (document commands symbols) = Ok (compact_line js jc))
    by (rewrite json_dumps_document, Hs, Hc; reflexivity).
  rewrite (run_serialised _ mdl_parseFile float_repr w _ path
             (VTuple [commands; symbols]) commands symbols
             (compact_line js jc));
    try reflexivity; try assumption.
  cbn [nth_error].
  eexists; split; [reflexivity |].
  split; [reflexivity |].
  split; [| exact Hj].
  reflexivity.
Qed.

End Claims.

(** ** Two runs over the same file *)

Section Determinism.

Variable world : Type.
Variable contents : Type.

(** What a run finds under a path, if anything. *)
Variable file_at : world -> pystr -> option contents.

Variable mdl_parseFile : world -> value -> result value.
Variable float_repr : spec_float -> string.
Variable pformat : value -> string.

Local Abbreviation exec := (run mdl_parseFile float_repr).
Local Abbreviation text := (stdout_text pformat).

(** C6.  With a parser whose answer depends on the file's contents
    only, two runs with the same arguments that find the same contents
    under [sys.argv[1]] end in the same state with the same outcome; in
    particular they write the same text. *)
Theorem same_file_same_output (w1 w2 : world) (argv : list pystr) :
  (forall wa wb p,
      file_at wa p = file_at wb p ->
      mdl_parseFile wa (VStr p) = mdl_parseFile wb (VStr p)) ->
  (forall path,
      nth_error argv 1 = Some path -> file_at w1 path = file_at w2 path) ->
  exec w1 argv = exec w2 argv /\
  stdout (fst (exec w1 argv)) = stdout (fst (exec w2 argv)) /\
  text (fst (exec w1 argv)) = text (fst (exec w2 argv)).
Proof.
  intros Hdet Hsame.
  assert (E : exec w1 argv = exec w2 argv).
  { destruct (nth_error argv 1) as [path|] eqn:H1.
    - specialize (Hdet w1 w2 path (Hsame path eq_refl)).
      unfold_run; rewrite H1; eval_run.
      rewrite Hdet; reflexivity.
    - rewrite !run_no_path by assumption; reflexivity. }
  rewrite E; auto.
Qed.

End Determinism.

(** ** The claims at the sample instance *)

Lemma sample_parseFile_reads_contents (wa wb : sample_world) (p : pystr) :
  sample_file_at wa p = sample_file_at wb p ->
  sample_parseFile wa (VStr p) = sample_parseFile wb (VStr p).
Proof. intros E; unfold sample_parseFile; rewrite E; reflexivity. Qed.

(** The flag is compared as it stands: [True] is not [true]. *)
Example capitalised_flag_is_not_debug :
  run sample_parseFile sample_float_repr sample_disk
      [u "main.py"; u "face.mdl"; u "True"]
  = ({| globals :=
          namespace_wrapped (u "face.mdl")
            (VTuple [sample_commands; sample_symbols])
            sample_commands sample_symbols;
        stdout := [Printed (compact_line "{}" sample_commands_json)];
        calls := [VStr (u "face.mdl")] |}, Ok tt).
Proof. reflexivity. Qed.

(** An empty model file that the parser reads without complaint gives
    two empty components, and the tuple of them is truthy. *)
Example empty_components_are_accepted :
  truthy (VTuple [VList []; VDict []]) = true /\
  json_dumps sample_float_repr (document (VList []) (VDict []))
  = Ok (compact_line "{}" "[]").
Proof. split; reflexivity. Qed.

Lemma accepted_file_prints_one_json_line_witness :
  sample_parseFile sample_disk (VStr (u "face.mdl"))
  = Ok (VTuple [sample_commands; sample_symbols]) /\
  exists st r,
    run sample_parseFile sample_float_repr sample_disk
        [u "main.py"; u "face.mdl"; u "false"] = (st, r) /\
    stdout st = [Printed (compact_line "{}" sample_commands_json)] /\
    json_dumps sample_float_repr (document sample_commands sample_symbols)
    = Ok (compact_line "{}" sample_commands_json) /\
    stdout_text sample_pformat st
    = compact_line "{}" sample_commands_json ++ newline /\
    newlines (stdout_text sample_pformat st) = 1 /\
    exit_status r = 0%Z.
Proof.
  split; [reflexivity |].
  apply (accepted_file_prints_one_json_line
           sample_world sample_parseFile sample_float_repr sample_pformat
           sample_disk (u "main.py") (u "face.mdl") (u "false") []
           sample_commands sample_symbols "{}" sample_commands_json).
  - exact sample_float_repr_one_line.
  - reflexivity.
  - reflexivity.
  - reflexivity.
  - discriminate.
Defined.

Lemma rejected_file_prints_diagnostic_witness :
  truthy (VTuple []) = false /\
  exists st r,
    run sample_parseFile sample_float_repr sample_disk
        [u "main.py"; u "notes.txt"; u "false"] = (st, r) /\
    stdout st = [Printed "Failed to parse"] /\
    stdout_text sample_pformat st = "Failed to parse" ++ newline /\
    exit_status r <> 0%Z.
Proof.
  split; [reflexivity |].
  apply (rejected_file_prints_diagnostic
           sample_world sample_parseFile sample_float_repr sample_pformat
           sample_disk (u "main.py") (u "notes.txt") [u "false"]
           (VTuple [])).
  - reflexivity.
  - reflexivity.
Defined.

Lemma short_argv_aborts_witness :
  List.length [u "main.py"; u "face.mdl"] < 3 /\
  exit_status
    (snd (run sample_parseFile sample_float_repr sample_disk
              [u "main.py"; u "face.mdl"])) <> 0%Z /\
  (nth_error [u "main.py"; u "face.mdl"] 1 = None ->
   run sample_parseFile sample_float_repr sample_disk
       [u "main.py"; u "face.mdl"] = (initial, Raise IndexError)) /\
  (forall path,
      nth_error [u "main.py"; u "face.mdl"] 1 = Some path ->
      calls (fst (run sample_parseFile sample_float_repr sample_disk
                      [u "main.py"; u "face.mdl"])) = [VStr path]).
Proof.
  split; [simpl; lia |].
  apply (short_argv_aborts sample_world sample_parseFile sample_float_repr
           sample_disk [u "main.py"; u "face.mdl"]).
  simpl; lia.
Defined.

(** C3 as stated fails: with the path given and the debug
    argument missing, the parser is called. *)
Lemma missing_flag_parser_still_called :
  List.length [u "main.py"; u "face.mdl"] < 3 /\
  calls (fst (run sample_parseFile sample_float_repr sample_disk
                  [u "main.py"; u "face.mdl"])) <> [].
Proof. split; [simpl; lia | discriminate]. Qed.

(** C4 as stated fails: on a rejected file the second
    argument [true] brings no debug rendering. *)
Lemma true_flag_without_rendering :
  ~ (debug_rendered
       (fst (run sample_parseFile sample_float_repr sample_disk
                 [u "main.py"; u "notes.txt"; u "true"])) = true
     <-> nth_error [u "main.py"; u "notes.txt"; u "true"] 2
         = Some (u "true")).
Proof. intros [_ H]; specialize (H eq_refl); discriminate. Qed.

Lemma debug_output_extends_plain_output_witness :
  u "false" <> u "true" /\
  exists plain debug,
    run sample_parseFile sample_float_repr sample_disk
        [u "main.py"; u "face.mdl"; u "false"] = (plain, Ok tt) /\
    run sample_parseFile sample_float_repr sample_disk
        [u "main.py"; u "face.mdl"; u "true"] = (debug, Ok tt) /\
    stdout plain = [Printed (compact_line "{}" sample_commands_json)] /\
    stdout debug =
      (stdout plain
         ++ [PrettyPrinted (document sample_commands sample_symbols)])%list /\
    json_dumps sample_float_repr (document sample_commands sample_symbols)
    = Ok (compact_line "{}" sample_commands_json) /\
    stdout_text sample_pformat debug =
      stdout_text sample_pformat plain
        ++ sample_pformat (document sample_commands sample_symbols)
        ++ newline.
Proof.
  split; [discriminate |].
  apply (debug_output_extends_plain_output
           sample_world sample_parseFile sample_float_repr sample_pformat
           sample_disk (u "main.py") (u "face.mdl") (u "false") []
           sample_commands sample_symbols "{}" sample_commands_json).
  - reflexivity.
  - reflexivity.
  - reflexivity.
  - discriminate.
Defined.

Lemma same_file_same_output_witness :
  sample_file_at sample_disk (u "face.mdl")
  = sample_file_at sample_disk' (u "face.mdl") /\
  run sample_parseFile sample_float_repr sample_disk
      [u "main.py"; u "face.mdl"; u "true"]
  = run sample_parseFile sample_float_repr sample_disk'
        [u "main.py"; u "face.mdl"; u "true"] /\
  stdout (fst (run sample_parseFile sample_float_repr sample_disk
                   [u "main.py"; u "face.mdl"; u "true"]))
  = stdout (fst (run sample_parseFile sample_float_repr sample_disk'
                     [u "main.py"; u "face.mdl"; u "true"])) /\
  stdout_text sample_pformat
    (fst (run sample_parseFile sample_float_repr sample_disk
              [u "main.py"; u "face.mdl"; u "true"]))
  = stdout_text sample_pformat
      (fst (run sample_parseFile sample_float_repr sample_disk'
                [u "main.py"; u "face.mdl"; u "true"])).
Proof.
  split; [reflexivity |].
  apply (same_file_same_output
           sample_world string sample_file_at sample_parseFile
           sample_float_repr sample_pformat sample_disk sample_disk'
           [u "main.py"; u "face.mdl"; u "true"]).
  - exact sample_parseFile_reads_contents.
  - intros path H; injection H as <-; reflexivity.
Defined.

Lemma document_carries_parser_values_witness :
  exists st r,
    run sample_parseFile sample_float_repr sample_disk
        [u "main.py"; u "face.mdl"; u "true"] = (st, r) /\
    lookup "commands" (globals st) = Some sample_commands /\
    lookup "symbols" (globals st) = Some sample_symbols /\
    lookup "wrapper" (globals st)
    = Some (document sample_commands sample_symbols) /\
    (forall line,
        In (Printed line) (stdout st) ->
        json_dumps sample_float_repr
          (document sample_commands sample_symbols) = Ok line) /\
    (forall v,
        In (PrettyPrinted v) (stdout st) ->
        v = document sample_commands sample_symbols) /\
    (forall line,
        json_dumps sample_float_repr
          (document sample_commands sample_symbols) = Ok line ->
        exists more, stdout st = Printed line :: more).
Proof.
  apply (document_carries_parser_values
           sample_world sample_parseFile sample_float_repr
           sample_disk (u "main.py") (u "face.mdl") [u "true"]
           sample_commands sample_symbols).
  reflexivity.
Defined.

(** C8 as stated fails: an invocation without a file name
    never reaches the parser. *)
Lemma no_path_no_parser_call :
  List.length
    (calls (fst (run sample_parseFile sample_float_repr sample_disk
                     [u "main.py"]))) <> 1.
Proof. discriminate. Qed.

Lemma rejected_file_raises_name_error_witness :
  truthy (VTuple []) = false /\
  exists st,
    run sample_parseFile sample_float_repr sample_disk
        [u "main.py"; u "notes.txt"; u "true"]
    = (st, Raise (NameError "symbols")) /\
    stdout st = [Printed "Failed to parse"] /\
    lookup "symbols" (globals st) = None /\
    lookup "commands" (globals st) = None /\
    lookup "wrapper" (globals st) = None.
Proof.
  split; [reflexivity |].
  apply (rejected_file_raises_name_error
           sample_world sample_parseFile sample_float_repr
           sample_disk (u "main.py") (u "notes.txt") [u "true"]
           (VTuple [])).
  - reflexivity.
  - reflexivity.
Defined.

Lemma missing_flag_fails_after_json_line_witness :
  exists st,
    run sample_parseFile sample_float_repr sample_disk
        [u "main.py"; u "face.mdl"] = (st, Raise IndexError) /\
    stdout st = [Printed (compact_line "{}" sample_commands_json)] /\
    stdout_text sample_pformat st
    = compact_line "{}" sample_commands_json ++ newline /\
    json_dumps sample_float_repr (document sample_commands sample_symbols)
    = Ok (compact_line "{}" sample_commands_json).
Proof.
  apply (missing_flag_fails_after_json_line
           sample_world sample_parseFile sample_float_repr sample_pformat
           sample_disk (u "main.py") (u "face.mdl")
           sample_commands sample_symbols "{}" sample_commands_json).
  - reflexivity.
  - reflexivity.
  - reflexivity.
Defined.

(** * Further properties of the script *)

(** ** Printable text *)

Lemma printable_app (a b : string) :
  printable (a ++ b) = printable a && printable b.
Proof.
  induction a as [|x a IH]; simpl; [reflexivity |].
  rewrite IH, andb_assoc; reflexivity.
Qed.

Lemma printable_concat (sep : string) (l : list string) :
  printable sep = true ->
  Forall (fun s => printable s = true) l ->
  printable (String.concat sep l) = true.
Proof.
  intros Hsep H; induction H as [|s l Hs Hl IH]; [reflexivity |].
  destruct l as [|s' l']; [exact Hs |].
  change (String.concat sep (s :: s' :: l'))
    with (s ++ sep ++ String.concat sep (s' :: l')).
  rewrite !printable_app, Hs, Hsep, IH; reflexivity.
Qed.

Lemma printable_hex_digit (n : N) : printable_char (hex_digit n) = true.
Proof.
  unfold hex_digit.
  repeat match goal with
         | |- context [match ?x with _ => _ end] => destruct x
         end; reflexivity.
Qed.

Lemma printable_u_escape (n : N) : printable (u_escape n) = true.
Proof.
  unfold u_escape, printable.
  rewrite !printable_hex_digit; reflexivity.
Qed.

Lemma printable_escape_char (c : N) : printable (escape_char c) = true.
Proof.
  unfold escape_char.
  destruct (N.eqb c 92); [reflexivity |].
  destruct (N.eqb c 34); [reflexivity |].
  destruct (N.eqb c 8); [reflexivity |].
  destruct (N.eqb c 12); [reflexivity |].
  destruct (N.eqb c 10); [reflexivity |].
  destruct (N.eqb c 13); [reflexivity |].
  destruct (N.eqb c 9); [reflexivity |].
  destruct (N.leb 32 c && N.leb c 126) eqn:Hp.
  - unfold printable, printable_char.
    assert (Hc : N_of_ascii (ascii_of_N c) = c).
    { apply andb_true_iff in Hp as [_ Hhi]; apply N.leb_le in Hhi.
      apply N_ascii_embedding; lia. }
    rewrite Hc, Hp; reflexivity.
  - destruct (N.ltb c 65536).
    + apply printable_u_escape.
    + cbv zeta; rewrite printable_app, !printable_u_escape; reflexivity.
Qed.

Lemma printable_encode_basestring_ascii (s : pystr) :
  printable (encode_basestring_ascii s) = true.
Proof.
  unfold encode_basestring_ascii.
  rewrite !printable_app, printable_concat; try reflexivity.
  apply Forall_forall; intros x Hx.
  apply in_map_iff in Hx as [c [<- _]].
  apply printable_escape_char.
Qed.

Lemma printable_string_of_uint (d : Decimal.uint) :
  printable (NilEmpty.string_of_uint d) = true.
Proof. induction d; simpl; auto. Qed.

Lemma printable_intstr (n : Z) : printable (intstr n) = true.
Proof.
  unfold intstr.
  assert (H : forall d, printable (NilZero.string_of_uint d) = true).
  { intros d; destruct d; try reflexivity;
      apply (printable_string_of_uint (_ d)). }
  destruct (Z.to_int n) as [d|d]; simpl; apply H.
Qed.

Section PrintableEncoder.

Variable float_repr : spec_float -> string.

(** [repr] of a float is made of printable characters. *)
Hypothesis float_repr_printable : forall f, printable (float_repr f) = true.

Lemma printable_floatstr (f : spec_float) :
  printable (floatstr float_repr f) = true.
Proof.
  destruct f as [s | [|] | | s m e]; simpl;
    try reflexivity; apply float_repr_printable.
Qed.

Lemma printable_iterencode (v : value) :
  forall s, iterencode float_repr v = Ok s -> printable s = true.
Proof.
  induction v as [ | [|] | n | f | t | l IHl | l IHl | items IHl]
    using value_nested_ind; cbn [iterencode]; intros s E.
  - apply Ok_inj in E; subst s; reflexivity.
  - apply Ok_inj in E; subst s; reflexivity.
  - apply Ok_inj in E; subst s; reflexivity.
  - apply Ok_inj in E; subst s; apply printable_intstr.
  - apply Ok_inj in E; subst s; apply printable_floatstr.
  - apply Ok_inj in E; subst s; apply printable_encode_basestring_ascii.
  - destruct l as [|x l]; [apply Ok_inj in E; subst s; reflexivity |].
    unfold rbind in E.
    destruct (rmap (iterencode float_repr) (x :: l)) as [cs|e] eqn:Ecs;
      [| discriminate].
    apply Ok_inj in E; subst s.
    rewrite !printable_app, printable_concat;
      [reflexivity | reflexivity |].
    eapply rmap_Forall; [exact IHl | exact Ecs].
  - destruct l as [|x l]; [apply Ok_inj in E; subst s; reflexivity |].
    unfold rbind in E.
    destruct (rmap (iterencode float_repr) (x :: l)) as [cs|e] eqn:Ecs;
      [| discriminate].
    apply Ok_inj in E; subst s.
    rewrite !printable_app, printable_concat;
      [reflexivity | reflexivity |].
    eapply rmap_Forall; [exact IHl | exact Ecs].
  - destruct items as [|kv items];
      [apply Ok_inj in E; subst s; reflexivity |].
    unfold rbind in E.
    match type of E with
    | match ?r with _ => _ end = _ =>
        destruct r as [cs|e] eqn:Ecs; [| discriminate]
    end.
    apply Ok_inj in E; subst s.
    rewrite !printable_app, printable_concat;
      [reflexivity | reflexivity |].
    eapply rmap_Forall; [| exact Ecs].
    eapply Forall_impl; [| exact IHl].
    intros [k x] Hx c Ec; cbn [fst snd] in *.
    destruct (key_str float_repr k) as [key|e]; [| discriminate].
    destruct (iterencode float_repr x) as [cx|e] eqn:Ex; [| discriminate].
    apply Ok_inj in Ec; subst c.
    rewrite !printable_app, printable_encode_basestring_ascii,
      (Hx cx eq_refl); reflexivity.
Qed.

End PrintableEncoder.

Lemma sample_float_repr_printable (f : spec_float) :
  printable (sample_float_repr f) = true.
Proof.
  destruct f as [[|] | b | | [|] m e]; try reflexivity;
    unfold sample_float_repr;
    rewrite !printable_app, !printable_intstr; reflexivity.
Qed.

(** ** Unpacking and the document *)

Lemma unpack2_truthy (parsed : value) (p : value * value) :
  unpack2 parsed = Ok p -> truthy parsed = true.
Proof.
  unfold unpack2, rbind.
  destruct parsed as [ | b | n | f | s | l | l | items]; simpl;
    try discriminate;
    [destruct s as [|? [|? [|? ?]]] | destruct l as [|? [|? [|? ?]]]
     | destruct l as [|? [|? [|? ?]]] | destruct items as [|? [|? [|? ?]]]];
    simpl; intros E; try discriminate; reflexivity.
Qed.

Lemma json_dumps_document_inv (float_repr : spec_float -> string)
      (commands symbols : value) (line : string) :
  json_dumps float_repr (document commands symbols) = Ok line ->
  exists js jc,
    json_dumps float_repr symbols = Ok js /\
    json_dumps float_repr commands = Ok jc /\
    line = compact_line js jc.
Proof.
  rewrite json_dumps_document; unfold rbind.
  destruct (json_dumps float_repr symbols) as [js|e]; [| discriminate].
  destruct (json_dumps float_repr commands) as [jc|e]; [| discriminate].
  intros E; apply Ok_inj in E; subst line.
  exists js, jc; auto.
Qed.

Lemma compact_line_not_diagnostic (js jc : string) :
  compact_line js jc <> "Failed to parse".
Proof. unfold compact_line; simpl; discriminate. Qed.

(** ** Every run *)

Section EveryRun.

Variable world : Type.
Variable mdl_parseFile : world -> value -> result value.
Variable float_repr : spec_float -> string.

Local Abbreviation exec := (run mdl_parseFile float_repr).
Local Abbreviation dumps := (json_dumps float_repr).

(** X1.  Whatever the arguments and the parser's answer, standard output
    receives nothing, or the diagnostic alone, or the JSON line alone, or
    the JSON line followed by the pretty form of the document it
    serialises.  So a diagnostic never stands beside a document and a
    pretty form never comes without its JSON line before it. *)
Theorem stdout_shapes (w : world) (argv : list pystr) :
  stdout (fst (exec w argv)) = [] \/
  stdout (fst (exec w argv)) = [Printed "Failed to parse"] \/
  exists commands symbols js jc,
    dumps symbols = Ok js /\
    dumps commands = Ok jc /\
    (stdout (fst (exec w argv)) = [Printed (compact_line js jc)] \/
     stdout (fst (exec w argv)) =
       [Printed (compact_line js jc);
        PrettyPrinted (document commands symbols)]).
Proof.
  pattern (exec w argv); apply run_inv; intros; cbn [fst stdout];
    try (left; reflexivity);
    try (right; left; reflexivity);
    right; right;
    match goal with
    | H : json_dumps _ (document ?c ?s) = Ok _ |- _ =>
        destruct (json_dumps_document_inv _ _ _ _ H)
          as (js & jc & Hs & Hc & ->);
        exists c, s, js, jc
    end;
    (split; [assumption |]); (split; [assumption |]);
    [left | right | left]; reflexivity.
Qed.

(** X2.  The module body runs to its end, and the exit status is 0,
    exactly when the run gets as far as printing the JSON line and a
    second argument is there to be compared, whatever it is. *)
Theorem normal_end_condition (w : world) (argv : list pystr) :
  snd (exec w argv) = Ok tt <->
  emits_document mdl_parseFile float_repr w argv /\
  nth_error argv 2 <> None.
Proof.
  pattern (exec w argv); apply run_inv; intros; cbn [snd];
    (split; [intros Hr; try discriminate |]);
    try (intros [(p & v & c' & s' & l' & Hp & Hv & Ht & Hu & Hj) Hflag];
         first [reflexivity | congruence]);
    (split; [exists path, parsed, c, s, line; repeat split; assumption
            | congruence]).
Qed.

(** X3.  The diagnostic is written exactly when the parser returns, and
    returns a falsy value; an exception out of the parser, a value that
    does not unpack or a document that does not serialise is not
    reported by it. *)
Theorem diagnostic_condition (w : world) (argv : list pystr) :
  In (Printed "Failed to parse") (stdout (fst (exec w argv))) <->
  exists path parsed,
    nth_error argv 1 = Some path /\
    mdl_parseFile w (VStr path) = Ok parsed /\
    truthy parsed = false.
Proof.
  pattern (exec w argv); apply run_inv; intros; cbn [fst stdout];
    (split; [intros Hin | intros (p & v & Hp & Hv & Hf)]);
    try (simpl in Hin; contradiction);
    try congruence;
    try (left; reflexivity);
    try (exists path, parsed; auto);
    match goal with
    | H : json_dumps _ (document _ _) = Ok _ |- _ =>
        destruct (json_dumps_document_inv _ _ _ _ H)
          as (js & jc & _ & _ & ->)
    end;
    simpl in Hin;
    repeat (destruct Hin as [Hin | Hin];
            [ try discriminate;
              injection Hin as Hin;
              exfalso; exact (compact_line_not_diagnostic _ _ Hin) | ]);
    contradiction.
Qed.

(** X4.  An exception raised by the parser is not caught: the run ends
    with that very exception, nothing has been written, and no name
    beyond [mdl_file] is bound. *)
Theorem parser_exception_propagates
        (w : world) (prog path : pystr) (rest : list pystr) (e : exn) :
  mdl_parseFile w (VStr path) = Raise e ->
  exists st,
    exec w (prog :: path :: rest) = (st, Raise e) /\
    stdout st = [] /\
    calls st = [VStr path] /\
    lookup "parsed" (globals st) = None.
Proof.
  intros Hp.
  rewrite (run_parser_raises _ mdl_parseFile float_repr w _ path e);
    try reflexivity; try assumption.
  eexists; repeat split.
Qed.

(** X5.  A truthy answer that is not an iterable of exactly two items
    ends the run at the unpacking, with [ValueError] when it can be
    iterated and [TypeError] when it cannot; neither the diagnostic nor
    anything else is written. *)
Theorem truthy_non_pair_raises
        (w : world) (prog path : pystr) (rest : list pystr)
        (parsed : value) :
  mdl_parseFile w (VStr path) = Ok parsed ->
  truthy parsed = true ->
  (forall c s, unpack2 parsed <> Ok (c, s)) ->
  exists st,
    exec w (prog :: path :: rest)
    = (st, Raise (match iterate parsed with
                  | Ok _ => ValueError
                  | Raise _ => TypeError
                  end)) /\
    stdout st = [] /\
    lookup "commands" (globals st) = None /\
    lookup "symbols" (globals st) = None.
Proof.
  intros Hp Ht Hu.
  assert (E : unpack2 parsed
              = Raise (match iterate parsed with
                       | Ok _ => ValueError
                       | Raise _ => TypeError
                       end)).
  { destruct (unpack2 parsed) as [[c s]|e] eqn:Eu;
      [exfalso; exact (Hu c s eq_refl) |].
    unfold unpack2, rbind in Eu.
    destruct parsed as [ | b | n | f | t | l | l | items];
      cbn [iterate] in *; try congruence;
      match type of Eu with
      | match ?xs with _ => _ end = _ =>
          destruct xs as [|? [|? [|? ?]]]; congruence
      end. }
  rewrite (run_unpack_fails _ mdl_parseFile float_repr w
             (prog :: path :: rest) path parsed _ eq_refl Hp Ht E).
  eexists; repeat split.
Qed.

(** X6.  The unpacking takes any iterable of two items, not a tuple
    only: for a list, a string of two characters or a dictionary of two
    keys the two items become [commands] and [symbols], in that order,
    and the JSON line is written as for a tuple. *)
Theorem two_item_iterable_accepted
        (w : world) (prog path : pystr) (rest : list pystr)
        (parsed commands symbols : value) (js jc : string) :
  mdl_parseFile w (VStr path) = Ok parsed ->
  unpack2 parsed = Ok (commands, symbols) ->
  dumps symbols = Ok js ->
  dumps commands = Ok jc ->
  exists st r more,
    exec w (prog :: path :: rest) = (st, r) /\
    stdout st = Printed (compact_line js jc) :: more /\
    lookup "commands" (globals st) = Some commands /\
    lookup "symbols" (globals st) = Some symbols.
Proof.
  intros Hp Hu Hs Hc.
  assert (Hj : dumps (document commands symbols) = Ok (compact_line js jc))
    by (rewrite json_dumps_document, Hs, Hc; reflexivity).
  rewrite (run_serialised _ mdl_parseFile float_repr w _ path
             parsed commands symbols (compact_line js jc));
    try reflexivity; try assumption;
    [| eapply unpack2_truthy; eassumption].
  destruct (nth_error (prog :: path :: rest) 2) as [a2|];
    [destruct (pystr_eqb a2 (u "true")) |];
    eexists; eexists; eexists; repeat split.
Qed.

(** X7.  The run reads [sys.argv[1]] and [sys.argv[2]] and nothing else
    of the argument list: the program name and any further argument do
    not change the final state or the outcome. *)
Theorem run_reads_two_arguments (w : world) (argv argv' : list pystr) :
  nth_error argv 1 = nth_error argv' 1 ->
  nth_error argv 2 = nth_error argv' 2 ->
  exec w argv = exec w argv'.
Proof.
  intros H1 H2; unfold_run; rewrite H1, H2; reflexivity.
Qed.

(** X8.  Whatever code points the parsed strings hold, every line that
    [print] writes is made of printable ASCII characters only, provided
    [repr] of a float is. *)
Theorem printed_lines_printable (w : world) (argv : list pystr) :
  (forall f, printable (float_repr f) = true) ->
  forall line,
    In (Printed line) (stdout (fst (exec w argv))) ->
    printable line = true.
Proof.
  intros Hrepr.
  pattern (exec w argv); apply run_inv; cbn [fst stdout]; intros;
    match goal with
    | Hin : In _ _ |- _ => simpl in Hin
    end;
    repeat match goal with
           | Hin : _ \/ _ |- _ => destruct Hin as [Hin | Hin]
           | Hin : False |- _ => contradiction
           | Hin : Printed _ = Printed _ |- _ =>
               injection Hin as <-
           | Hin : PrettyPrinted _ = Printed _ |- _ => discriminate
           end;
    try reflexivity;
    eapply printable_iterencode; eauto.
Qed.

(** X9.  When the document does not serialise, nothing at all is
    written, no part of a JSON line either, and the exception is that
    of the first component that fails, [symbols] coming first. *)
Theorem unserialisable_document_writes_nothing
        (w : world) (prog path : pystr) (rest : list pystr)
        (commands symbols : value) (e : exn) :
  mdl_parseFile w (VStr path) = Ok (VTuple [commands; symbols]) ->
  dumps (document commands symbols) = Raise e ->
  exists st,
    exec w (prog :: path :: rest) = (st, Raise e) /\
    stdout st = [] /\
    (dumps symbols = Raise e \/
     exists js, dumps symbols = Ok js /\ dumps commands = Raise e).
Proof.
  intros Hp Hj.
  rewrite (run_not_serialisable _ mdl_parseFile float_repr w _ path
             (VTuple [commands; symbols]) commands symbols e);
    try reflexivity; try assumption.
  eexists; split; [reflexivity |]; split; [reflexivity |].
  rewrite json_dumps_document in Hj; unfold rbind in Hj.
  destruct (dumps symbols) as [js|e1]; [| left; congruence].
  destruct (dumps commands) as [jc|e2]; [discriminate |].
  right; exists js; split; congruence.
Qed.

(** X10.  The debug argument, when there is one, decides the pretty
    form and nothing else: two runs on the same file that differ in that
    argument, or in what follows it, bind the same names, call the
    parser alike, end alike and print the same lines. *)
Theorem debug_flag_changes_pretty_form_only
        (w : world) (prog path flag flag' : pystr)
        (rest rest' : list pystr) :
  globals (fst (exec w (prog :: path :: flag :: rest)))
  = globals (fst (exec w (prog :: path :: flag' :: rest'))) /\
  calls (fst (exec w (prog :: path :: flag :: rest)))
  = calls (fst (exec w (prog :: path :: flag' :: rest'))) /\
  snd (exec w (prog :: path :: flag :: rest))
  = snd (exec w (prog :: path :: flag' :: rest')) /\
  filter (fun o => negb (is_pretty o))
         (stdout (fst (exec w (prog :: path :: flag :: rest))))
  = filter (fun o => negb (is_pretty o))
           (stdout (fst (exec w (prog :: path :: flag' :: rest')))).
Proof.
  destruct (mdl_parseFile w (VStr path)) as [parsed|e] eqn:Hp.
  - destruct (truthy parsed) eqn:Ht.
    + destruct (unpack2 parsed) as [[c s]|e] eqn:Hu.
      * destruct (dumps (document c s)) as [line|e] eqn:Hj.
        -- rewrite !(run_serialised _ mdl_parseFile float_repr w _ path
                       parsed c s line);
             try reflexivity; try assumption.
           cbn [nth_error].
           destruct (pystr_eqb flag (u "true"));
             destruct (pystr_eqb flag' (u "true"));
             repeat split.
        -- rewrite !(run_not_serialisable _ mdl_parseFile float_repr w _
                       path parsed c s e);
             try reflexivity; try assumption.
           repeat split.
      * rewrite !(run_unpack_fails _ mdl_parseFile float_repr w _ path
                    parsed e);
          try reflexivity; try assumption.
        repeat split.
    + rewrite !(run_rejected _ mdl_parseFile float_repr w _ path parsed);
        try reflexivity; try assumption.
      repeat split.
  - rewrite !(run_parser_raises _ mdl_parseFile float_repr w _ path e);
      try reflexivity; try assumption.
    repeat split.
Qed.

End EveryRun.

(** ** These properties at the sample instance *)

Lemma parser_exception_propagates_witness :
  sample_odd_parseFile sample_odd_disk (VStr (u "gone.mdl"))
  = Raise (Other "FileNotFoundError") /\
  exists st,
    run sample_odd_parseFile sample_float_repr sample_odd_disk
        [u "main.py"; u "gone.mdl"; u "true"]
    = (st, Raise (Other "FileNotFoundError")) /\
    stdout st = [] /\
    calls st = [VStr (u "gone.mdl")] /\
    lookup "parsed" (globals st) = None.
Proof.
  split; [reflexivity |].
  apply (parser_exception_propagates
           sample_world sample_odd_parseFile sample_float_repr
           sample_odd_disk (u "main.py") (u "gone.mdl") [u "true"]
           (Other "FileNotFoundError")).
  reflexivity.
Defined.

Lemma truthy_non_pair_raises_witness :
  truthy (VTuple [VNone; VNone; VNone]) = true /\
  exists st,
    run sample_odd_parseFile sample_float_repr sample_odd_disk
        [u "main.py"; u "triple.mdl"; u "true"]
    = (st, Raise (match iterate (VTuple [VNone; VNone; VNone]) with
                  | Ok _ => ValueError
                  | Raise _ => TypeError
                  end)) /\
    stdout st = [] /\
    lookup "commands" (globals st) = None /\
    lookup "symbols" (globals st) = None.
Proof.
  split; [reflexivity |].
  apply (truthy_non_pair_raises
           sample_world sample_odd_parseFile sample_float_repr
           sample_odd_disk (u "main.py") (u "triple.mdl") [u "true"]
           (VTuple [VNone; VNone; VNone])).
  - reflexivity.
  - reflexivity.
  - intros c s; discriminate.
Defined.

Lemma two_item_iterable_accepted_witness :
  unpack2 (VList [sample_commands; sample_symbols])
  = Ok (sample_commands, sample_symbols) /\
  exists st r more,
    run sample_odd_parseFile sample_float_repr sample_odd_disk
        [u "main.py"; u "list.mdl"; u "true"] = (st, r) /\
    stdout st = Printed (compact_line "{}" sample_commands_json) :: more /\
    lookup "commands" (globals st) = Some sample_commands /\
    lookup "symbols" (globals st) = Some sample_symbols.
Proof.
  split; [reflexivity |].
  apply (two_item_iterable_accepted
           sample_world sample_odd_parseFile sample_float_repr
           sample_odd_disk (u "main.py") (u "list.mdl") [u "true"]
           (VList [sample_commands; sample_symbols])
           sample_commands sample_symbols "{}" sample_commands_json).
  - reflexivity.
  - reflexivity.
  - reflexivity.
  - reflexivity.
Defined.

Lemma run_reads_two_arguments_witness :
  run sample_parseFile sample_float_repr sample_disk
      [u "main.py"; u "face.mdl"; u "true"]
  = run sample_parseFile sample_float_repr sample_disk
        [u "./main.py"; u "face.mdl"; u "true"; u "--verbose"].
Proof.
  apply (run_reads_two_arguments
           sample_world sample_parseFile sample_float_repr sample_disk
           [u "main.py"; u "face.mdl"; u "true"]
           [u "./main.py"; u "face.mdl"; u "true"; u "--verbose"]).
  - reflexivity.
  - reflexivity.
Defined.

Lemma printed_lines_printable_witness :
  In (Printed (compact_line "{}" sample_commands_json))
     (stdout (fst (run sample_parseFile sample_float_repr sample_disk
                       [u "main.py"; u "face.mdl"; u "true"]))) /\
  printable (compact_line "{}" sample_commands_json) = true.
Proof.
  split; [left; reflexivity |].
  apply (printed_lines_printable
           sample_world sample_parseFile sample_float_repr sample_disk
           [u "main.py"; u "face.mdl"; u "true"]
           sample_float_repr_printable
           (compact_line "{}" sample_commands_json)).
  left; reflexivity.
Defined.

Lemma unserialisable_document_writes_nothing_witness :
  json_dumps sample_float_repr
    (document sample_commands (VDict [(VTuple [VInt 1], VInt 2)]))
  = Raise TypeError /\
  exists st,
    run sample_odd_parseFile sample_float_repr sample_odd_disk
        [u "main.py"; u "badkey.mdl"; u "true"] = (st, Raise TypeError) /\
    stdout st = [] /\
    (json_dumps sample_float_repr (VDict [(VTuple [VInt 1], VInt 2)])
     = Raise TypeError \/
     exists js,
       json_dumps sample_float_repr (VDict [(VTuple [VInt 1], VInt 2)])
       = Ok js /\
       json_dumps sample_float_repr sample_commands = Raise TypeError).
Proof.
  split; [reflexivity |].
  apply (unserialisable_document_writes_nothing
           sample_world sample_odd_parseFile sample_float_repr
           sample_odd_disk (u "main.py") (u "badkey.mdl") [u "true"]
           sample_commands (VDict [(VTuple [VInt 1], VInt 2)]) TypeError).
  - reflexivity.
  - reflexivity.
Defined.
